(** * pinfo: the storage-information report of plaso/frontend/pinfo.py

    A shallow embedding of [PinfoFrontend] and [Main], followed by the
    properties of the report assembly: block order, verbosity gating,
    counter ordering, the last-entry flag and the generator's outcomes.

    Python objects are dynamically typed, so attribute and dictionary
    values are a small universe [PyValue]; an operation applied to a value
    of the wrong shape raises, which the [result] monad records.  Lists
    appended to in place ([lines_of_text]) are threaded explicitly. *)

From Stdlib Require Import String Ascii List ZArith Bool Lia.
From Stdlib Require Import Sorted Permutation DecimalString.
Import ListNotations.

Local Open Scope Z_scope.
Local Open Scope list_scope.
Local Open Scope string_scope.

Set Implicit Arguments.
Set Warnings "-register-all".

(** ** Python values and exceptions *)

(** The values a preprocessing object or one of its dictionaries holds.
    An association list stands for a dict in its iteration order; a
    [PyCounter] is a [collections.Counter] with integer counts. *)
Inductive PyValue : Type :=
| PyNone
| PyStr (s : string)
| PyInt (n : Z)
| PyList (items : list PyValue)
| PyDict (entries : list (string * PyValue))
| PyCounter (counts : list (string * Z)).

Inductive PyExn : Type :=
| AttributeError
| KeyError (key : string)
| TypeError
| ValueError
| IOError (message : string)
| BadConfigOption (message : string).

(** A computation either returns or raises. *)
Inductive result (A : Type) : Type :=
| Ok (value : A)
| Raised (exception : PyExn).

Arguments Ok {A} value.
Arguments Raised {A} exception.

Definition bind {A B : Type} (m : result A) (k : A -> result B) : result B :=
  match m with
  | Ok a => k a
  | Raised e => Raised e
  end.

Notation "x <- m ;; k" := (bind m (fun x => k))
  (at level 61, m at next level, right associativity).

(** ** Built-in operations *)

(** Lookup of a key in a dict, first match. *)
Fixpoint lookup {V : Type} (key : string) (entries : list (string * V))
  : option V :=
  match entries with
  | [] => None
  | (k, v) :: rest => if String.eqb k key then Some v else lookup key rest
  end.

(** [if value:] *)
Definition truthy (value : PyValue) : bool :=
  match value with
  | PyNone => false
  | PyStr s => negb (String.eqb s "")
  | PyInt n => negb (n =? 0)%Z
  | PyList items => match items with [] => false | _ => true end
  | PyDict entries => match entries with [] => false | _ => true end
  | PyCounter counts => match counts with [] => false | _ => true end
  end.

(** [isinstance(value, list)] *)
Definition isinstance_list (value : PyValue) : bool :=
  match value with
  | PyList _ => true
  | _ => false
  end.

(** A Counter seen as the dict it is. *)
Definition counter_entries (counts : list (string * Z))
  : list (string * PyValue) :=
  map (fun kv => (fst kv, PyInt (snd kv))) counts.

(** [mapping.items()] / [mapping.iteritems()] *)
Definition dict_items (mapping : PyValue) : result (list (string * PyValue)) :=
  match mapping with
  | PyDict entries => Ok entries
  | PyCounter counts => Ok (counter_entries counts)
  | _ => Raised AttributeError
  end.

(** [mapping.get(key, default)] *)
Definition dict_get (mapping : PyValue) (key : string) (default : PyValue)
  : result PyValue :=
  entries <- dict_items mapping ;;
  Ok (match lookup key entries with
      | Some v => v
      | None => default
      end).

(** [mapping[key]]; a Counter answers 0 for a missing key. *)
Definition subscript (mapping : PyValue) (key : string) : result PyValue :=
  match mapping with
  | PyDict entries =>
      match lookup key entries with
      | Some v => Ok v
      | None => Raised (KeyError key)
      end
  | PyCounter counts =>
      match lookup key counts with
      | Some n => Ok (PyInt n)
      | None => Ok (PyInt 0)
      end
  | _ => Raised TypeError
  end.

(** [lines_of_text.append(line)] *)
Definition append (lines_of_text : list string) (line : string) : list string :=
  (lines_of_text ++ [line])%list.

(** [key not in [...]] *)
Definition not_in (key : string) (keys : list string) : bool :=
  negb (existsb (String.eqb key) keys).

(** The tab character of the report lines. *)
Definition TAB : string := String "009" "".

(** The newline the blocks are joined with. *)
Definition NL : string := String "010" "".

(** [text * count] *)
Definition repeat_string (text : string) (count : Z) : string :=
  String.concat "" (repeat text (Z.to_nat count)).

(** [u'{0:d}'.format(n)] for an integer. *)
Definition decimal (n : Z) : string := NilZero.string_of_int (Z.to_int n).

(** ** Counter.most_common

    [most_common()] is [sorted(self.iteritems(), key=itemgetter(1),
    reverse=True)]; Python's sort is stable, also under [reverse=True]. *)
Fixpoint insert_by_count (entry : string * Z) (sorted : list (string * Z))
  : list (string * Z) :=
  match sorted with
  | [] => [entry]
  | head :: rest =>
      if (snd head <=? snd entry)%Z then entry :: head :: rest
      else head :: insert_by_count entry rest
  end.

Fixpoint sorted_by_count (entries : list (string * Z)) : list (string * Z) :=
  match entries with
  | [] => []
  | entry :: rest => insert_by_count entry (sorted_by_count rest)
  end.

Definition most_common (counter_information : PyValue)
  : result (list (string * Z)) :=
  match counter_information with
  | PyCounter counts => Ok (sorted_by_count counts)
  | _ => Raised AttributeError
  end.

(** ** The storage file and the front-end *)

(** A preprocessing object is its [__dict__], in iteration order. *)
Definition PreprocessObject : Type := list (string * PyValue).

(** [getattr(info, name, None)] *)
Definition getattr (info : PreprocessObject) (name : string) : PyValue :=
  match lookup name info with
  | Some v => v
  | None => PyNone
  end.

(** What the formatter and the generator read from an opened storage file:
    [GetStorageInformation()], [HasReports()] and the [GetString()] of every
    report of [GetReports()], in order. *)
Record StorageFile : Type := {
  GetStorageInformation_list : list PreprocessObject;
  HasReports : bool;
  GetReports : list string
}.

Record PinfoFrontend : Type := {
  _storage_file_path : string;
  _verbose : bool;
  OpenStorageFile : result StorageFile
}.

(** ** Sample data

    Stand-ins for the renderers that live outside this file, exact on the
    values the sample records hold (strings, integers, [None], empty
    containers, the timestamp 0), and a few records and storage files. *)
Module Sample.

Definition py_str (value : PyValue) : string :=
  match value with
  | PyNone => "None"
  | PyStr s => s
  | PyInt n => decimal n
  | PyList _ => "[]"
  | PyDict _ => "{}"
  | PyCounter _ => "Counter()"
  end.

Definition pformat (value : PyValue) : string := py_str value.

Definition CopyToIsoFormat (timestamp : Z) : string :=
  "1970-01-01T00:00:00+00:00".

Definition LINE_LENGTH : Z := 80.

(** A front-end on [disk.plaso], with and without [--verbose]. *)
Definition quiet : PinfoFrontend :=
  {| _storage_file_path := "disk.plaso";
     _verbose := false;
     OpenStorageFile := Raised (IOError "No such file") |}.

Definition verbose : PinfoFrontend :=
  {| _storage_file_path := "disk.plaso";
     _verbose := true;
     OpenStorageFile := Raised (IOError "No such file") |}.

(** One run over [disk.img] at the epoch, one store, no counters. *)
Definition info_plain : PreprocessObject :=
  [("collection_information",
    PyDict [("file_processed", PyStr "disk.img"); ("time_of_run", PyInt 0)]);
   ("stores", PyDict [("Number", PyInt 1)])].

(** The same run with a store detail and a further attribute. *)
Definition info_detailed : PreprocessObject :=
  [("zone", PyStr "UTC");
   ("collection_information",
    PyDict [("file_processed", PyStr "disk.img"); ("time_of_run", PyInt 0)]);
   ("stores", PyDict [("Store 1", PyList []); ("Number", PyInt 1)])].

(** A record with a parser counter and nothing else. *)
Definition info_counter : PreprocessObject :=
  [("counter", PyCounter [("a", 5); ("b", 5); ("c", 2)])].

Definition without_reports : StorageFile :=
  {| GetStorageInformation_list := [info_plain];
     HasReports := false;
     GetReports := [] |}.

Definition with_report : StorageFile :=
  {| GetStorageInformation_list := [info_plain];
     HasReports := true;
     GetReports := ["Report A"] |}.

Definition with_reports : StorageFile :=
  {| GetStorageInformation_list := [info_detailed];
     HasReports := true;
     GetReports := ["Report B"; "Report C"] |}.

(** A record whose stores hold a detail entry but no [Number]. *)
Definition info_no_number : PreprocessObject :=
  [("stores", PyDict [("Store 1", PyList [])])].

(** A storage file with two runs, and the front-ends that open it. *)
Definition two_runs : StorageFile :=
  {| GetStorageInformation_list := [info_detailed; info_plain];
     HasReports := true;
     GetReports := ["Report B"; "Report C"] |}.

Definition opened (verbosity : bool) : PinfoFrontend :=
  {| _storage_file_path := "disk.plaso";
     _verbose := verbosity;
     OpenStorageFile := Ok two_runs |}.

(** A storage file without any run, opened. *)
Definition no_run : StorageFile :=
  {| GetStorageInformation_list := [];
     HasReports := false;
     GetReports := [] |}.

Definition opened_empty : PinfoFrontend :=
  {| _storage_file_path := "empty.plaso";
     _verbose := false;
     OpenStorageFile := Ok no_run |}.

End Sample.

Section Pinfo.

(** Provided by the interpreter and by modules outside this file:
    [unicode(value)], [pprint.PrettyPrinter(indent=8).pformat],
    [timelib.Timestamp.CopyToIsoFormat] on an integer timestamp, the
    inherited [_LINE_LENGTH], [unicode.encode(preferred_encoding)] and the
    text of [arg_parser.print_help()]. *)
Variable py_str : PyValue -> string.
Variable pformat : PyValue -> string.
Variable CopyToIsoFormat : Z -> string.
Variable _LINE_LENGTH : Z.
Variable encode : string -> string.
Variable help_text : string.

(** [u'{0:s}'.format(value)]: numbers reject the [s] code, other objects
    fall back to their text. *)
Definition format_s (value : PyValue) : result string :=
  match value with
  | PyStr s => Ok s
  | PyInt _ => Raised ValueError
  | _ => Ok (py_str value)
  end.

(** [u'{0:d}'.format(value)] *)
Definition format_d (value : PyValue) : result string :=
  match value with
  | PyInt n => Ok (decimal n)
  | _ => Raised ValueError
  end.

(** [timelib.Timestamp.CopyToIsoFormat(value)]: the helper takes an integer
    timestamp; handing it any other value is a type error. *)
Definition copy_to_iso_format (value : PyValue) : result string :=
  match value with
  | PyInt timestamp => Ok (CopyToIsoFormat timestamp)
  | _ => Raised TypeError
  end.

Section Frontend.

Variable self : PinfoFrontend.

(** The loop of [_AddCollectionInformation] over [items()]. *)
Definition collection_item_lines (items : list (string * PyValue))
  : list string :=
  map (fun kv => TAB ++ fst kv ++ " = " ++ py_str (snd kv))
      (filter
         (fun kv => not_in (fst kv) ["file_processed"; "time_of_run"])
         items).

(** Adds the lines of text that make up the collection information. *)
Definition _AddCollectionInformation (lines_of_text : list string)
    (collection_information : PyValue) : result (list string) :=
  filename <- dict_get collection_information "file_processed" (PyStr "N/A") ;;
  time_of_run <- dict_get collection_information "time_of_run" (PyInt 0) ;;
  time_of_run <- copy_to_iso_format time_of_run ;;
  let lines_of_text :=
    append lines_of_text
      ("Storage file:" ++ TAB ++ TAB ++ _storage_file_path self) in
  filename <- format_s filename ;;
  let lines_of_text :=
    append lines_of_text ("Source processed:" ++ TAB ++ filename) in
  let lines_of_text :=
    append lines_of_text ("Time of processing:" ++ TAB ++ time_of_run) in
  let lines_of_text := append lines_of_text "" in
  let lines_of_text := append lines_of_text "Collection information:" in
  items <- dict_items collection_information ;;
  Ok (lines_of_text ++ collection_item_lines items)%list.

(** The loop of [_AddCounterInformation] over [most_common()]. *)
Definition counter_lines (entries : list (string * Z)) : list string :=
  map (fun kv => TAB ++ "Counter: " ++ fst kv ++ " = " ++ decimal (snd kv))
      entries.

(** Adds the lines of text that make up the counter information. *)
Definition _AddCounterInformation (lines_of_text : list string)
    (description : string) (counter_information : PyValue)
  : result (list string) :=
  let lines_of_text := append lines_of_text "" in
  let lines_of_text := append lines_of_text (description ++ ":") in
  entries <- most_common counter_information ;;
  Ok (lines_of_text ++ counter_lines entries)%list.

(** Adds the lines of text that make up the header. *)
Definition _AddHeader (lines_of_text : list string) : list string :=
  let lines_of_text := append lines_of_text (repeat_string "-" _LINE_LENGTH) in
  let lines_of_text :=
    append lines_of_text (TAB ++ TAB ++ "Plaso Storage Information") in
  append lines_of_text (repeat_string "-" _LINE_LENGTH).

(** The loop of [_AddStoreInformation] over [iteritems()]. *)
Definition store_detail_lines (items : list (string * PyValue))
  : list string :=
  map (fun kv => TAB ++ fst kv ++ " =" ++ NL ++ pformat (snd kv))
      (filter (fun kv => not_in (fst kv) ["Number"]) items).

(** Adds the lines of text that make up the store information. *)
Definition _AddStoreInformation (lines_of_text : list string)
    (store_information : PyValue) : result (list string) :=
  let lines_of_text := append lines_of_text "" in
  let lines_of_text := append lines_of_text "Store information:" in
  number <- subscript store_information "Number" ;;
  number <- format_d number ;;
  let lines_of_text :=
    append lines_of_text (TAB ++ "Number of available stores: " ++ number) in
  if negb (_verbose self) then
    Ok (append lines_of_text
          (TAB ++ "Store information details omitted (to see use: --verbose)"))
  else
    items <- dict_items store_information ;;
    Ok (lines_of_text ++ store_detail_lines items)%list.

(** Lines 131-136: the header and collection block, or the notice. *)
Definition collection_block (lines_of_text : list string)
    (info : PreprocessObject) : result (list string) :=
  let collection_information := getattr info "collection_information" in
  if truthy collection_information then
    _AddCollectionInformation (_AddHeader lines_of_text) collection_information
  else
    Ok (append lines_of_text "Missing collection information.").

(** Lines 138-150: the counter blocks and the store block. *)
Definition counter_and_store_blocks (lines_of_text : list string)
    (info : PreprocessObject) : result (list string) :=
  let counter_information := getattr info "counter" in
  lines_of_text <-
    (if truthy counter_information then
       _AddCounterInformation
         lines_of_text "Parser counter information" counter_information
     else Ok lines_of_text) ;;
  let counter_information := getattr info "plugin_counter" in
  lines_of_text <-
    (if truthy counter_information then
       _AddCounterInformation
         lines_of_text "Plugin counter information" counter_information
     else Ok lines_of_text) ;;
  let store_information := getattr info "stores" in
  if truthy store_information then
    _AddStoreInformation lines_of_text store_information
  else Ok lines_of_text.

(** One turn of the loop over [info.__dict__.items()]. *)
Definition preprocessing_entry (key : string) (value : PyValue) : string :=
  if String.eqb key "collection_information" then ""
  else if String.eqb key "counter" || String.eqb key "stores" then ""
  else if isinstance_list value then
    TAB ++ key ++ " =" ++ NL ++ pformat value ++ NL
  else
    TAB ++ key ++ " = " ++ py_str value ++ NL.

(** Lines 154-168. *)
Definition preprocessing_block (info : PreprocessObject) : string :=
  if negb (_verbose self) then
    "Preprocessing information omitted (to see use: --verbose)."
  else
    fold_left
      (fun preprocessing kv =>
         preprocessing ++ preprocessing_entry (fst kv) (snd kv))
      info ("Preprocessing information:" ++ NL).

(** Lines 170-181. *)
Definition reports_block (storage_file : StorageFile) (last_entry : bool)
  : string :=
  let reports :=
    if negb last_entry then ""
    else if HasReports storage_file then
      "Reporting information omitted (to see use: --verbose)."
    else "No reports stored." in
  if _verbose self && last_entry && HasReports storage_file then
    String.concat NL (GetReports storage_file)
  else reports.

(** Formats the storage information of one record. *)
Definition _FormatStorageInformation (info : PreprocessObject)
    (storage_file : StorageFile) (last_entry : bool) : result string :=
  let lines_of_text := [] in
  lines_of_text <- collection_block lines_of_text info ;;
  lines_of_text <- counter_and_store_blocks lines_of_text info ;;
  let information := String.concat NL lines_of_text in
  let preprocessing := preprocessing_block info in
  let reports := reports_block storage_file last_entry in
  Ok (String.concat NL
        [information; ""; preprocessing; ""; reports; repeat_string "-+" 40]).

(** ** The generator *)

(** What a run of the generator produces: the items yielded in order, the
    exception that ended it if one did, and the errors logged. *)
Record Generated : Type := {
  yielded : list string;
  raised : option PyExn;
  logged : list string
}.

(** The [(info, last_entry)] pairs the loop over
    [enumerate(list_of_storage_information)] hands to the formatter. *)
Fixpoint enumerate_last_entry (length index : nat) (last_entry : bool)
    (list_of_storage_information : list PreprocessObject)
  : list (PreprocessObject * bool) :=
  match list_of_storage_information with
  | [] => []
  | info :: rest =>
      let last_entry :=
        if (index + 1 =? length)%nat then true else last_entry in
      (info, last_entry) :: enumerate_last_entry length (S index) last_entry rest
  end.

(** Yields the formatted text of every pair until one raises. *)
Fixpoint yield_formatted (storage_file : StorageFile)
    (entries : list (PreprocessObject * bool)) : list string * option PyExn :=
  match entries with
  | [] => ([], None)
  | (info, last_entry) :: rest =>
      match _FormatStorageInformation info storage_file last_entry with
      | Raised e => ([], Some e)
      | Ok text =>
          let (texts, e) := yield_formatted storage_file rest in
          (text :: texts, e)
      end
  end.

(** The formatted storage information generator, run to its end. *)
Definition GetStorageInformation : Generated :=
  match OpenStorageFile self with
  | Raised (IOError exception) =>
      {| yielded := [];
         raised := None;
         logged := ["Unable to open storage file: " ++ _storage_file_path self
                      ++ " with error: " ++ exception] |}
  | Raised e => {| yielded := []; raised := Some e; logged := [] |}
  | Ok storage_file =>
      let list_of_storage_information :=
        GetStorageInformation_list storage_file in
      match list_of_storage_information with
      | [] => {| yielded := [""]; raised := None; logged := [] |}
      | _ =>
          let last_entry := false in
          let (texts, e) :=
            yield_formatted storage_file
              (enumerate_last_entry
                 (List.length list_of_storage_information) 0 last_entry
                 list_of_storage_information) in
          {| yielded := texts; raised := e; logged := [] |}
      end
  end.

End Frontend.

(** ** Main *)

(** What a run of the tool leaves behind: the texts handed to [print], one
    per statement, the errors logged, and the value returned or the
    exception that escaped. *)
Record Outcome : Type := {
  stdout : list string;
  log : list string;
  returned : result bool
}.

(** The loop of [Main] over the generator's items. *)
Fixpoint print_storage_information (items : list string)
    (storage_information_found : bool) (printed : list string)
  : bool * list string :=
  match items with
  | [] => (storage_information_found, printed)
  | storage_information :: rest =>
      let storage_information_found := true in
      print_storage_information rest storage_information_found
        (append printed (encode storage_information))
  end.

(** [Main], from [front_end.ParseOptions(options)] on: [parsed] is the
    front-end that call leaves, or the exception it raises. *)
Definition Main (parsed : result PinfoFrontend) : Outcome :=
  match parsed with
  | Raised (BadConfigOption exception) =>
      {| stdout := [help_text; ""];
         log := [exception];
         returned := Ok false |}
  | Raised e => {| stdout := []; log := []; returned := Raised e |}
  | Ok front_end =>
      let generated := GetStorageInformation front_end in
      let storage_information_found := false in
      let (storage_information_found, printed) :=
        print_storage_information
          (yielded generated) storage_information_found [] in
      match raised generated with
      | Some e =>
          {| stdout := printed; log := logged generated; returned := Raised e |}
      | None =>
          {| stdout :=
               if negb storage_information_found then
                 append printed "No Plaso storage information found."
               else printed;
             log := logged generated;
             returned := Ok true |}
      end
  end.

(** ** Vocabulary of the properties *)

(** Counts never increase along the list. *)
Definition descending (entries : list (string * Z)) : Prop :=
  StronglySorted (fun earlier later => snd later <= snd earlier)%Z entries.

(** The entries of one given count. *)
Definition with_count (n : Z) (entries : list (string * Z))
  : list (string * Z) :=
  filter (fun kv => (snd kv =? n)%Z) entries.

(** The text the verbose loop over [info.__dict__.items()] adds after the
    header line. *)
Definition preprocessing_entries (info : PreprocessObject) : string :=
  fold_right
    (fun kv text => preprocessing_entry (fst kv) (snd kv) ++ text) "" info.

(** Two [stores] attributes that differ at most in their detail entries:
    the same value, or two dicts with the same [Number]. *)
Definition same_store_number (stores1 stores2 : PyValue) : Prop :=
  stores1 = stores2
  \/ exists (entries1 entries2 : list (string * PyValue)) (number : PyValue),
       stores1 = PyDict entries1
       /\ stores2 = PyDict entries2
       /\ lookup "Number" entries1 = Some number
       /\ lookup "Number" entries2 = Some number.

(** The fixed lines of the collection block, for a source and a time. *)
Definition collection_lines (self : PinfoFrontend)
    (filename time_of_run : string) : list string :=
  ["Storage file:" ++ TAB ++ TAB ++ _storage_file_path self;
   "Source processed:" ++ TAB ++ filename;
   "Time of processing:" ++ TAB ++ time_of_run;
   "";
   "Collection information:"].

(** The store block as printed with verbosity off. *)
Definition quiet_store_lines (number : string) : list string :=
  [""; "Store information:";
   TAB ++ "Number of available stores: " ++ number;
   TAB ++ "Store information details omitted (to see use: --verbose)"].

(** A step that only appends to [lines_of_text], and fails or not
    whatever the lines already there. *)
Definition appends (step : list string -> result (list string)) : Prop :=
  forall lines_of_text : list string,
    step lines_of_text
    = (added <- step [] ;; Ok (lines_of_text ++ added)%list).

(** A record as the engine writes it: its collection information, when
    there is one, is a dict whose [file_processed] is a string and whose
    [time_of_run] is an integer where they are present; its counters are
    Counters; its stores are a dict with an integer [Number]. *)
Definition well_formed_collection (value : PyValue) : bool :=
  match value with
  | PyDict entries =>
      match lookup "file_processed" entries with
      | None | Some (PyStr _) => true
      | _ => false
      end
      && match lookup "time_of_run" entries with
         | None | Some (PyInt _) => true
         | _ => false
         end
  | _ => negb (truthy value)
  end.

Definition well_formed_counter (value : PyValue) : bool :=
  match value with
  | PyCounter _ => true
  | _ => negb (truthy value)
  end.

Definition well_formed_stores (value : PyValue) : bool :=
  match value with
  | PyDict entries =>
      match lookup "Number" entries with
      | Some (PyInt _) => true
      | _ => negb (truthy value)
      end
  | _ => negb (truthy value)
  end.

Definition well_formed_record (info : PreprocessObject) : bool :=
  well_formed_collection (getattr info "collection_information")
  && well_formed_counter (getattr info "counter")
  && well_formed_counter (getattr info "plugin_counter")
  && well_formed_stores (getattr info "stores").

(** ** Properties *)

(** *** Strings and joined lines *)

Lemma append_nil_r (s : string) : s ++ "" = s.
Proof. induction s as [|c s IH]; simpl; [reflexivity | now rewrite IH]. Qed.

Lemma append_assoc (s t u : string) : (s ++ t) ++ u = s ++ t ++ u.
Proof. induction s as [|c s IH]; simpl; [reflexivity | now rewrite IH]. Qed.

(** Joining two non-empty runs of lines joins their joins. *)
Lemma concat_app (sep : string) (front back : list string) :
  front <> [] -> back <> [] ->
  String.concat sep (front ++ back)
    = String.concat sep front ++ sep ++ String.concat sep back.
Proof.
  intros Hfront Hback.
  induction front as [|line front IH]; [congruence|].
  destruct front as [|line' front].
  - destruct back as [|b back]; [congruence | reflexivity].
  - change (String.concat sep ((line :: line' :: front) ++ back))
      with (line ++ sep ++ String.concat sep ((line' :: front) ++ back)).
    rewrite IH by discriminate.
    change (String.concat sep (line :: line' :: front))
      with (line ++ sep ++ String.concat sep (line' :: front)).
    now rewrite !append_assoc.
Qed.

(** Joining a joined block with further parts joins all the lines. *)
Lemma concat_blocks (sep : string) (lines : list string) (part : string)
    (parts : list string) :
  lines <> [] ->
  String.concat sep (String.concat sep lines :: part :: parts)
    = String.concat sep (lines ++ part :: parts).
Proof.
  intros Hlines. rewrite concat_app; [reflexivity | exact Hlines | discriminate].
Qed.

(** *** The result monad *)

Lemma bind_Ok {A B : Type} (a : A) (k : A -> result B) : bind (Ok a) k = k a.
Proof. reflexivity. Qed.

(** *** Ordering of counters *)

Lemma insert_by_count_perm (entry : string * Z) (sorted : list (string * Z)) :
  Permutation (entry :: sorted) (insert_by_count entry sorted).
Proof.
  induction sorted as [|head rest IH]; simpl; [apply Permutation_refl|].
  destruct (snd head <=? snd entry)%Z; [apply Permutation_refl|].
  eapply perm_trans; [apply perm_swap | now apply perm_skip].
Qed.

Lemma sorted_by_count_perm (entries : list (string * Z)) :
  Permutation entries (sorted_by_count entries).
Proof.
  induction entries as [|entry rest IH]; simpl; [constructor|].
  eapply perm_trans; [apply perm_skip, IH | apply insert_by_count_perm].
Qed.

Lemma insert_by_count_descending (entry : string * Z)
    (sorted : list (string * Z)) :
  descending sorted -> descending (insert_by_count entry sorted).
Proof.
  unfold descending.
  induction sorted as [|head rest IH]; intros Hsorted; simpl.
  - repeat constructor.
  - apply StronglySorted_inv in Hsorted as [Hrest Hhead].
    destruct (Z.leb_spec (snd head) (snd entry)) as [Hle|Hgt].
    + constructor; [now constructor|].
      constructor; [exact Hle|].
      eapply Forall_impl; [|exact Hhead]. simpl. intros later Hlater. lia.
    + constructor; [now apply IH|].
      eapply Permutation_Forall; [apply insert_by_count_perm|].
      constructor; [lia | exact Hhead].
Qed.

Lemma sorted_by_count_descending (entries : list (string * Z)) :
  descending (sorted_by_count entries).
Proof.
  induction entries as [|entry rest IH]; simpl.
  - constructor.
  - now apply insert_by_count_descending.
Qed.

Lemma insert_by_count_stable (n : Z) (entry : string * Z)
    (sorted : list (string * Z)) :
  with_count n (insert_by_count entry sorted) = with_count n (entry :: sorted).
Proof.
  unfold with_count.
  induction sorted as [|head rest IH]; [reflexivity|].
  simpl. destruct (Z.leb_spec (snd head) (snd entry)) as [Hle|Hgt].
  - reflexivity.
  - simpl. rewrite IH. simpl.
    destruct (Z.eqb_spec (snd head) n), (Z.eqb_spec (snd entry) n);
      try reflexivity; lia.
Qed.

Lemma sorted_by_count_stable (n : Z) (entries : list (string * Z)) :
  with_count n (sorted_by_count entries) = with_count n entries.
Proof.
  induction entries as [|entry rest IH]; [reflexivity|].
  simpl. rewrite insert_by_count_stable.
  unfold with_count in *. simpl. now rewrite IH.
Qed.

(** C4: the counter lines follow [most_common()]: counts never increase down
    the block, the lines are those of the table, and entries of equal count
    keep the table's relative order; the table a:5, b:5, c:2 renders as a,
    b, c. *)
Theorem counter_lines_descending_stable :
  forall (lines_of_text : list string) (description : string)
         (counts : list (string * Z)),
    _AddCounterInformation lines_of_text description (PyCounter counts)
      = Ok (append (append lines_of_text "") (description ++ ":")
              ++ counter_lines (sorted_by_count counts))%list
    /\ descending (sorted_by_count counts)
    /\ Permutation counts (sorted_by_count counts)
    /\ (forall n : Z,
          with_count n (sorted_by_count counts) = with_count n counts)
    /\ counter_lines (sorted_by_count [("a", 5); ("b", 5); ("c", 2)])
       = [TAB ++ "Counter: a = 5"; TAB ++ "Counter: b = 5";
          TAB ++ "Counter: c = 2"].
Proof.
  intros lines_of_text description counts.
  split; [reflexivity|].
  split; [apply sorted_by_count_descending|].
  split; [apply sorted_by_count_perm|].
  split; [intros n; apply sorted_by_count_stable | reflexivity].
Qed.

(** *** The last-entry flag and the reports block *)

Lemma enumerate_last_entry_infos (length index : nat) (last_entry : bool)
    (infos : list PreprocessObject) :
  map fst (enumerate_last_entry length index last_entry infos) = infos.
Proof.
  revert index last_entry.
  induction infos as [|info rest IH]; intros index last_entry; simpl;
    [reflexivity | now rewrite IH].
Qed.

Lemma enumerate_last_entry_flags (length index : nat)
    (infos : list PreprocessObject) :
  infos <> [] ->
  (index + List.length infos = length)%nat ->
  map snd (enumerate_last_entry length index false infos)
    = (repeat false (List.length infos - 1) ++ [true])%list.
Proof.
  revert index.
  induction infos as [|info rest IH]; intros index Hne Hlen; [congruence|].
  simpl in Hlen. simpl enumerate_last_entry.
  destruct rest as [|next rest].
  - simpl in Hlen.
    replace (index + 1 =? length)%nat with true
      by (symmetry; apply Nat.eqb_eq; lia).
    reflexivity.
  - replace (index + 1 =? length)%nat with false
      by (symmetry; apply Nat.eqb_neq; simpl in Hlen; lia).
    cbn [map snd]. rewrite IH; [|discriminate|simpl in *; lia].
    simpl. now rewrite Nat.sub_0_r.
Qed.

(** C3: the reports block is empty unless the entry is the last one; on the
    last entry it is the no-reports notice, the omission line, or the report
    texts joined by newlines; it is the fifth of the six joined parts of the
    output; and the loop flags the final record of the list and no other. *)
Theorem reports_block_only_on_last_entry :
  forall (self : PinfoFrontend) (storage_file : StorageFile)
         (last_entry : bool) (info : PreprocessObject)
         (rest : list PreprocessObject),
    reports_block self storage_file last_entry
      = (if negb last_entry then ""
         else if negb (HasReports storage_file) then "No reports stored."
         else if negb (_verbose self) then
           "Reporting information omitted (to see use: --verbose)."
         else String.concat NL (GetReports storage_file))
    /\ _FormatStorageInformation self info storage_file last_entry
       = (lines_of_text <- collection_block self [] info ;;
          lines_of_text <- counter_and_store_blocks self lines_of_text info ;;
          Ok (String.concat NL lines_of_text ++ NL ++ NL
                ++ preprocessing_block self info ++ NL ++ NL
                ++ reports_block self storage_file last_entry ++ NL
                ++ repeat_string "-+" 40))
    /\ map snd
         (enumerate_last_entry
            (List.length (info :: rest)) 0 false (info :: rest))
       = (repeat false (List.length rest) ++ [true])%list
    /\ map fst
         (enumerate_last_entry
            (List.length (info :: rest)) 0 false (info :: rest))
       = info :: rest
    /\ count_occ Bool.bool_dec
         (map snd
            (enumerate_last_entry
               (List.length (info :: rest)) 0 false (info :: rest)))
         true
       = 1%nat.
Proof.
  intros self storage_file last_entry info rest.
  assert (Hflags :
            map snd
              (enumerate_last_entry
                 (List.length (info :: rest)) 0 false (info :: rest))
            = (repeat false (List.length rest) ++ [true])%list).
  { rewrite enumerate_last_entry_flags; [|discriminate|reflexivity].
    simpl. now rewrite Nat.sub_0_r. }
  split.
  { unfold reports_block.
    destruct last_entry, (HasReports storage_file), (_verbose self);
      reflexivity. }
  split; [reflexivity|].
  split; [exact Hflags|].
  split; [apply enumerate_last_entry_infos|].
  rewrite Hflags, count_occ_app. simpl.
  assert (Hnone :
            count_occ Bool.bool_dec (repeat false (List.length rest)) true
            = 0%nat).
  { apply count_occ_not_In. intros Hin. apply repeat_spec in Hin.
    discriminate. }
  now rewrite Hnone.
Qed.

(** *** The generator and the tool *)

(** C7: a storage file that cannot be opened ends the generator with no
    item and one logged error, nothing raised; one that opens with an empty
    list of storage information yields the empty string alone. *)
Theorem GetStorageInformation_empty_outcomes :
  (forall (path exception : string) (verbose : bool),
      GetStorageInformation
        {| _storage_file_path := path;
           _verbose := verbose;
           OpenStorageFile := Raised (IOError exception) |}
      = {| yielded := [];
           raised := None;
           logged := ["Unable to open storage file: " ++ path
                        ++ " with error: " ++ exception] |})
  /\ (forall (path : string) (verbose has_reports : bool)
             (reports : list string),
        GetStorageInformation
          {| _storage_file_path := path;
             _verbose := verbose;
             OpenStorageFile :=
               Ok {| GetStorageInformation_list := [];
                     HasReports := has_reports;
                     GetReports := reports |} |}
        = {| yielded := [""]; raised := None; logged := [] |}).
Proof. split; reflexivity. Qed.

(** C1, on the code: a storage file that opens with no storage information
    makes [Main] print the encoded empty string and nothing else, the
    notice being printed only when the generator yields no item, as it does
    when the file cannot be opened. *)
Theorem Main_empty_storage_prints_empty_item :
  (forall (path : string) (verbose has_reports : bool)
          (reports : list string),
      Main
        (Ok {| _storage_file_path := path;
               _verbose := verbose;
               OpenStorageFile :=
                 Ok {| GetStorageInformation_list := [];
                       HasReports := has_reports;
                       GetReports := reports |} |})
      = {| stdout := [encode ""]; log := []; returned := Ok true |})
  /\ (forall (path exception : string) (verbose : bool),
        stdout
          (Main
             (Ok {| _storage_file_path := path;
                    _verbose := verbose;
                    OpenStorageFile := Raised (IOError exception) |}))
        = ["No Plaso storage information found."]).
Proof. split; reflexivity. Qed.

(** *** The preprocessing block *)

Lemma preprocessing_fold (info : PreprocessObject) (preprocessing : string) :
  fold_left
    (fun preprocessing kv =>
       preprocessing ++ preprocessing_entry (fst kv) (snd kv))
    info preprocessing
  = preprocessing ++ preprocessing_entries info.
Proof.
  revert preprocessing.
  induction info as [|kv rest IH]; intros preprocessing; simpl.
  - now rewrite append_nil_r.
  - now rewrite IH, append_assoc.
Qed.

Lemma preprocessing_entries_app (front back : PreprocessObject) :
  preprocessing_entries (front ++ back)%list
  = preprocessing_entries front ++ preprocessing_entries back.
Proof.
  induction front as [|kv rest IH]; simpl; [reflexivity|].
  now rewrite IH, append_assoc.
Qed.

Lemma preprocessing_block_verbose (self : PinfoFrontend)
    (info : PreprocessObject) :
  _verbose self = true ->
  preprocessing_block self info
  = "Preprocessing information:" ++ NL ++ preprocessing_entries info.
Proof.
  intros Hverbose. unfold preprocessing_block. rewrite Hverbose. simpl negb.
  cbv iota. rewrite preprocessing_fold. now rewrite append_assoc.
Qed.

Lemma preprocessing_block_quiet (self : PinfoFrontend)
    (info : PreprocessObject) :
  _verbose self = false ->
  preprocessing_block self info
  = "Preprocessing information omitted (to see use: --verbose).".
Proof. intros Hquiet. unfold preprocessing_block. now rewrite Hquiet. Qed.

(** An attribute that has no block of its own is rendered by the loop. *)
Lemma preprocessing_entry_rendered (key : string) (value : PyValue) :
  not_in key ["collection_information"; "counter"; "plugin_counter"; "stores"]
    = true ->
  preprocessing_entry key value
  = TAB ++ key
      ++ (if isinstance_list value then " =" ++ NL ++ pformat value
          else " = " ++ py_str value)
      ++ NL.
Proof.
  unfold not_in, preprocessing_entry. simpl existsb.
  rewrite (String.eqb_sym key "collection_information").
  rewrite (String.eqb_sym key "counter"), (String.eqb_sym key "stores").
  destruct (String.eqb "collection_information" key); [discriminate|].
  destruct (String.eqb "counter" key); [discriminate|].
  destruct (String.eqb "stores" key);
    [rewrite !Bool.orb_true_r; discriminate|].
  intros _. simpl. destruct (isinstance_list value); reflexivity.
Qed.

(** C2, on the code: in verbose mode an attribute named [plugin_counter] is
    rendered in the preprocessing block, where [counter] is skipped. *)
Theorem plugin_counter_in_preprocessing_block :
  forall (path : string) (opened : result StorageFile)
         (counts : list (string * Z)),
    preprocessing_block
      {| _storage_file_path := path;
         _verbose := true;
         OpenStorageFile := opened |}
      [("plugin_counter", PyCounter counts)]
    = "Preprocessing information:" ++ NL
        ++ TAB ++ "plugin_counter = " ++ py_str (PyCounter counts) ++ NL
    /\ preprocessing_block
         {| _storage_file_path := path;
            _verbose := true;
            OpenStorageFile := opened |}
         [("counter", PyCounter counts)]
       = "Preprocessing information:" ++ NL.
Proof. intros path opened counts. split; reflexivity. Qed.

(** C5, amended: with verbosity off the preprocessing block is the omission
    line alone, without the header; with verbosity on it is the header line
    followed by a body in which every attribute that has no block of its
    own is rendered as [key = value], a list on a line of its own; either
    way it is the third of the six joined parts of the output. *)
Theorem preprocessing_block_gated :
  forall (self : PinfoFrontend) (info : PreprocessObject)
         (storage_file : StorageFile) (last_entry : bool),
    (if _verbose self then
       exists body : string,
         preprocessing_block self info
           = "Preprocessing information:" ++ NL ++ body
         /\ forall (key : string) (value : PyValue),
              In (key, value) info ->
              not_in key ["collection_information"; "counter";
                          "plugin_counter"; "stores"] = true ->
              exists before after : string,
                body
                = before
                    ++ (TAB ++ key
                          ++ (if isinstance_list value
                              then " =" ++ NL ++ pformat value
                              else " = " ++ py_str value)
                          ++ NL)
                    ++ after
     else
       preprocessing_block self info
         = "Preprocessing information omitted (to see use: --verbose).")
    /\ _FormatStorageInformation self info storage_file last_entry
       = (lines_of_text <- collection_block self [] info ;;
          lines_of_text <- counter_and_store_blocks self lines_of_text info ;;
          Ok (String.concat NL
                [String.concat NL lines_of_text; "";
                 preprocessing_block self info; "";
                 reports_block self storage_file last_entry;
                 repeat_string "-+" 40])).
Proof.
  intros self info storage_file last_entry.
  split; [|reflexivity].
  destruct (_verbose self) eqn:Hverbose.
  - exists (preprocessing_entries info).
    split; [now apply preprocessing_block_verbose|].
    intros key value Hin Hkey.
    apply in_split in Hin as [front [back Hinfo]].
    exists (preprocessing_entries front), (preprocessing_entries back).
    rewrite Hinfo, preprocessing_entries_app. simpl.
    now rewrite (preprocessing_entry_rendered key value Hkey).
  - now apply preprocessing_block_quiet.
Qed.

(** C10, on the code: in verbose mode a record whose [plugin_counter] is an
    empty Counter and a record without that attribute are formatted
    differently, the empty table being listed in the preprocessing block. *)
Theorem empty_plugin_counter_is_listed :
  forall (path : string) (opened : result StorageFile)
         (storage_file : StorageFile) (last_entry : bool),
    let self :=
      {| _storage_file_path := path;
         _verbose := true;
         OpenStorageFile := opened |} in
    _FormatStorageInformation
      self [("plugin_counter", PyCounter [])] storage_file last_entry
    = Ok (String.concat NL
            ["Missing collection information."; "";
             "Preprocessing information:" ++ NL
               ++ TAB ++ "plugin_counter = " ++ py_str (PyCounter []) ++ NL;
             ""; reports_block self storage_file last_entry;
             repeat_string "-+" 40])
    /\ _FormatStorageInformation self [] storage_file last_entry
       = Ok (String.concat NL
               ["Missing collection information."; "";
                "Preprocessing information:" ++ NL;
                ""; reports_block self storage_file last_entry;
                repeat_string "-+" 40])
    /\ _FormatStorageInformation
         self [("plugin_counter", PyCounter [])] storage_file last_entry
       <> _FormatStorageInformation self [] storage_file last_entry.
Proof.
  intros path opened storage_file last_entry self.
  split; [reflexivity|]. split; [reflexivity|].
  intros Heq. cbv in Heq. discriminate Heq.
Qed.

(** *** Steps that append *)

Lemma appends_Ok : appends (fun lines_of_text => Ok lines_of_text).
Proof. intros lines_of_text. simpl. now rewrite app_nil_r. Qed.

Lemma appends_bind (first second : list string -> result (list string)) :
  appends first -> appends second ->
  appends (fun lines_of_text => bind (first lines_of_text) second).
Proof.
  intros Hfirst Hsecond lines_of_text.
  rewrite (Hfirst lines_of_text).
  destruct (first []) as [added|e]; simpl; [|reflexivity].
  rewrite (Hsecond (lines_of_text ++ added)%list), (Hsecond added).
  destruct (second []) as [more|e]; simpl; [|reflexivity].
  now rewrite app_assoc.
Qed.

Lemma appends_if (test : bool) (step : list string -> result (list string)) :
  appends step ->
  appends (fun lines_of_text =>
             if test then step lines_of_text else Ok lines_of_text).
Proof. destruct test; [trivial | intros _; apply appends_Ok]. Qed.

Lemma _AddCounterInformation_appends (description : string)
    (counter_information : PyValue) :
  appends (fun lines_of_text =>
             _AddCounterInformation
               lines_of_text description counter_information).
Proof.
  intros lines_of_text. unfold _AddCounterInformation, append.
  destruct (most_common counter_information) as [entries|e]; simpl;
    [|reflexivity].
  now rewrite <- !app_assoc.
Qed.

Lemma _AddStoreInformation_appends (self : PinfoFrontend)
    (store_information : PyValue) :
  appends (fun lines_of_text =>
             _AddStoreInformation self lines_of_text store_information).
Proof.
  intros lines_of_text. unfold _AddStoreInformation, append.
  destruct (subscript store_information "Number") as [number|e]; simpl;
    [|reflexivity].
  destruct (format_d number) as [text|e]; simpl; [|reflexivity].
  destruct (_verbose self); simpl.
  - destruct (dict_items store_information) as [items|e]; simpl;
      [|reflexivity].
    now rewrite <- !app_assoc.
  - now rewrite <- !app_assoc.
Qed.

Lemma counter_and_store_blocks_appends (self : PinfoFrontend)
    (info : PreprocessObject) :
  appends (fun lines_of_text =>
             counter_and_store_blocks self lines_of_text info).
Proof.
  unfold counter_and_store_blocks.
  apply (appends_bind
           (first := fun lines_of_text =>
                       if truthy (getattr info "counter") then
                         _AddCounterInformation
                           lines_of_text "Parser counter information"
                           (getattr info "counter")
                       else Ok lines_of_text)).
  { apply appends_if, _AddCounterInformation_appends. }
  apply (appends_bind
           (first := fun lines_of_text =>
                       if truthy (getattr info "plugin_counter") then
                         _AddCounterInformation
                           lines_of_text "Plugin counter information"
                           (getattr info "plugin_counter")
                       else Ok lines_of_text)).
  { apply appends_if, _AddCounterInformation_appends. }
  apply (appends_if (truthy (getattr info "stores"))
           (_AddStoreInformation_appends self (getattr info "stores"))).
Qed.

(** *** Sections that are absent or empty *)

(** A section whose attribute is absent, [None] or empty is not rendered:
    the notice stands for the collection information, and the counter and
    store blocks add no line. *)
Lemma falsy_sections_are_skipped (self : PinfoFrontend)
    (info : PreprocessObject) (lines_of_text : list string) :
  (truthy (getattr info "collection_information") = false ->
   collection_block self lines_of_text info
   = Ok (append lines_of_text "Missing collection information."))
  /\ (truthy (getattr info "counter") = false ->
      truthy (getattr info "plugin_counter") = false ->
      truthy (getattr info "stores") = false ->
      counter_and_store_blocks self lines_of_text info = Ok lines_of_text).
Proof.
  split.
  - intros Hcollection. unfold collection_block. now rewrite Hcollection.
  - intros Hcounter Hplugin Hstores. unfold counter_and_store_blocks.
    now rewrite Hcounter, Hplugin, Hstores.
Qed.

(** *** Records without collection information *)

(** C8: when the record has no [collection_information] attribute, the
    output is the notice line, then the counter and store lines, then the
    preprocessing block, the reports block and the closing rule, each
    between blank-line separators: no header and no collection line. *)
Theorem missing_collection_information_first :
  forall (self : PinfoFrontend) (info : PreprocessObject)
         (storage_file : StorageFile) (last_entry : bool),
    lookup "collection_information" info = None ->
    _FormatStorageInformation self info storage_file last_entry
    = (later <- counter_and_store_blocks self [] info ;;
       Ok (String.concat NL
             ("Missing collection information."
                :: later
                ++ [""; preprocessing_block self info; "";
                    reports_block self storage_file last_entry;
                    repeat_string "-+" 40])%list)).
Proof.
  intros self info storage_file last_entry Habsent.
  unfold _FormatStorageInformation, collection_block, getattr.
  rewrite Habsent. simpl truthy. cbv iota. rewrite bind_Ok.
  rewrite (counter_and_store_blocks_appends self info).
  destruct (counter_and_store_blocks self [] info) as [later|e];
    [|reflexivity].
  unfold bind. apply f_equal.
  exact (@concat_blocks NL
           ("Missing collection information." :: later) ""
           [preprocessing_block self info; "";
            reports_block self storage_file last_entry;
            repeat_string "-+" 40]
           ltac:(discriminate)).
Qed.

(** *** Missing fields of the collection information *)

(** C9: a collection-information dict without [file_processed] is rendered
    with [N/A] as the source, one without [time_of_run] with the timestamp 0
    in ISO format as the time of processing; the call returns its lines and
    raises nothing. *)
Theorem collection_information_defaults :
  forall (self : PinfoFrontend) (lines_of_text : list string)
         (entries : list (string * PyValue)),
    (lookup "file_processed" entries = None ->
     lookup "time_of_run" entries = None ->
     _AddCollectionInformation self lines_of_text (PyDict entries)
     = Ok (lines_of_text
             ++ collection_lines self "N/A" (CopyToIsoFormat 0)
             ++ collection_item_lines entries)%list)
    /\ (forall timestamp : Z,
          lookup "file_processed" entries = None ->
          lookup "time_of_run" entries = Some (PyInt timestamp) ->
          _AddCollectionInformation self lines_of_text (PyDict entries)
          = Ok (lines_of_text
                  ++ collection_lines self "N/A" (CopyToIsoFormat timestamp)
                  ++ collection_item_lines entries)%list)
    /\ (forall filename : string,
          lookup "file_processed" entries = Some (PyStr filename) ->
          lookup "time_of_run" entries = None ->
          _AddCollectionInformation self lines_of_text (PyDict entries)
          = Ok (lines_of_text
                  ++ collection_lines self filename (CopyToIsoFormat 0)
                  ++ collection_item_lines entries)%list).
Proof.
  intros self lines_of_text entries.
  unfold _AddCollectionInformation, dict_get, append, collection_lines.
  simpl dict_items. rewrite !bind_Ok.
  repeat split.
  - intros Hfile Htime. rewrite Hfile, Htime. simpl.
    now rewrite <- !app_assoc.
  - intros timestamp Hfile Htime. rewrite Hfile, Htime. simpl.
    now rewrite <- !app_assoc.
  - intros filename Hfile Htime. rewrite Hfile, Htime. simpl.
    now rewrite <- !app_assoc.
Qed.

(** *** Verbosity off *)

Lemma quiet_store_block (self : PinfoFrontend) (lines_of_text : list string)
    (entries : list (string * PyValue)) (number : PyValue) :
  _verbose self = false ->
  lookup "Number" entries = Some number ->
  (if truthy (PyDict entries) then
     _AddStoreInformation self lines_of_text (PyDict entries)
   else Ok lines_of_text)
  = (number <- format_d number ;;
     Ok (lines_of_text ++ quiet_store_lines number)%list).
Proof.
  intros Hquiet Hnumber.
  destruct entries as [|entry entries]; [discriminate|].
  unfold truthy, _AddStoreInformation, subscript, append.
  rewrite Hnumber, Hquiet, bind_Ok.
  destruct (format_d number) as [text|e]; simpl; [|reflexivity].
  unfold quiet_store_lines. now rewrite <- !app_assoc.
Qed.

(** C6: with verbosity off, two records that agree on the collection
    information, on both counters and on the number of stores, read from
    storage files that agree on whether reports exist, are formatted alike
    whatever their store details, other attributes and report texts; the
    store details, the preprocessing block and the reports of the last entry
    are each the fixed omission line. *)
Theorem quiet_output_independent_of_details :
  forall (self : PinfoFrontend) (info1 info2 : PreprocessObject)
         (storage_file1 storage_file2 : StorageFile) (last_entry : bool),
    _verbose self = false ->
    getattr info1 "collection_information"
      = getattr info2 "collection_information" ->
    getattr info1 "counter" = getattr info2 "counter" ->
    getattr info1 "plugin_counter" = getattr info2 "plugin_counter" ->
    same_store_number (getattr info1 "stores") (getattr info2 "stores") ->
    HasReports storage_file1 = HasReports storage_file2 ->
    _FormatStorageInformation self info1 storage_file1 last_entry
      = _FormatStorageInformation self info2 storage_file2 last_entry
    /\ preprocessing_block self info1
       = "Preprocessing information omitted (to see use: --verbose)."
    /\ reports_block self storage_file1 true
       = (if HasReports storage_file1 then
            "Reporting information omitted (to see use: --verbose)."
          else "No reports stored.")
    /\ (forall (lines_of_text : list string)
               (entries : list (string * PyValue)) (number : Z),
          lookup "Number" entries = Some (PyInt number) ->
          _AddStoreInformation self lines_of_text (PyDict entries)
          = Ok (lines_of_text ++ quiet_store_lines (decimal number))%list).
Proof.
  intros self info1 info2 storage_file1 storage_file2 last_entry
    Hquiet Hcollection Hcounter Hplugin Hstores Hreports.
  split; [|split; [|split]].
  - unfold _FormatStorageInformation.
    rewrite !(preprocessing_block_quiet self _ Hquiet).
    unfold reports_block, collection_block. rewrite Hquiet, Hreports.
    rewrite Hcollection.
    destruct (if truthy (getattr info2 "collection_information")
              then _AddCollectionInformation self (_AddHeader [])
                     (getattr info2 "collection_information")
              else Ok (append [] "Missing collection information."))
      as [lines_of_text|e]; simpl bind; [|reflexivity].
    unfold counter_and_store_blocks. rewrite Hcounter, Hplugin.
    destruct (if truthy (getattr info2 "counter")
              then _AddCounterInformation lines_of_text
                     "Parser counter information" (getattr info2 "counter")
              else Ok lines_of_text)
      as [lines_of_text'|e]; simpl bind; [|reflexivity].
    destruct (if truthy (getattr info2 "plugin_counter")
              then _AddCounterInformation lines_of_text'
                     "Plugin counter information"
                     (getattr info2 "plugin_counter")
              else Ok lines_of_text')
      as [lines_of_text''|e]; simpl bind; [|reflexivity].
    destruct Hstores
      as [Hsame|[entries1 [entries2 [number [H1 [H2 [Hn1 Hn2]]]]]]].
    + now rewrite Hsame.
    + rewrite H1, H2.
      rewrite (quiet_store_block self lines_of_text'' entries1 Hquiet Hn1).
      now rewrite (quiet_store_block self lines_of_text'' entries2 Hquiet Hn2).
  - now apply preprocessing_block_quiet.
  - unfold reports_block. rewrite Hquiet. reflexivity.
  - intros lines_of_text entries number Hnumber.
    pose proof (quiet_store_block self lines_of_text entries Hquiet Hnumber)
      as Hblock.
    destruct entries as [|entry entries]; [discriminate|].
    exact Hblock.
Qed.

(** *** Records that format, records that raise *)

Lemma collection_block_returns (self : PinfoFrontend)
    (lines_of_text : list string) (info : PreprocessObject) :
  well_formed_collection (getattr info "collection_information") = true ->
  exists lines : list string,
    collection_block self lines_of_text info = Ok lines.
Proof.
  unfold collection_block.
  destruct (getattr info "collection_information")
    as [|s|n|items|entries|counts];
    unfold well_formed_collection; intros Hwell;
    try (apply Bool.negb_true_iff in Hwell; rewrite Hwell; eexists;
         reflexivity).
  destruct entries as [|entry entries]; [eexists; reflexivity|].
  cbv beta iota delta [truthy].
  apply Bool.andb_true_iff in Hwell as [Hfile Htime].
  unfold _AddCollectionInformation, dict_get. simpl dict_items.
  rewrite !bind_Ok.
  destruct (lookup "file_processed" (entry :: entries)) as [[|s|n|l|d|c]|];
    try discriminate;
    destruct (lookup "time_of_run" (entry :: entries)) as [[|s'|n'|l'|d'|c']|];
    try discriminate; eexists; reflexivity.
Qed.

Lemma counter_step_returns (lines_of_text : list string)
    (description : string) (value : PyValue) :
  well_formed_counter value = true ->
  exists lines : list string,
    (if truthy value then
       _AddCounterInformation lines_of_text description value
     else Ok lines_of_text)
    = Ok lines.
Proof.
  destruct value as [|s|n|items|entries|counts]; unfold well_formed_counter;
    intros Hwell;
    try (apply Bool.negb_true_iff in Hwell; rewrite Hwell; eexists;
         reflexivity).
  destruct (truthy (PyCounter counts)); eexists; reflexivity.
Qed.

Lemma store_step_returns (self : PinfoFrontend) (lines_of_text : list string)
    (value : PyValue) :
  well_formed_stores value = true ->
  exists lines : list string,
    (if truthy value then _AddStoreInformation self lines_of_text value
     else Ok lines_of_text)
    = Ok lines.
Proof.
  destruct value as [|s|n|items|entries|counts]; unfold well_formed_stores;
    intros Hwell;
    try (apply Bool.negb_true_iff in Hwell; rewrite Hwell; eexists;
         reflexivity).
  destruct (truthy (PyDict entries)) eqn:Htruthy; [|eexists; reflexivity].
  unfold _AddStoreInformation, subscript. simpl dict_items.
  destruct (lookup "Number" entries) as [[|s|n|l|d|c]|];
    try discriminate Hwell.
  simpl. destruct (_verbose self); eexists; reflexivity.
Qed.

Lemma formatting_returns (self : PinfoFrontend) (info : PreprocessObject)
    (storage_file : StorageFile) (last_entry : bool) :
  well_formed_record info = true ->
  exists text : string,
    _FormatStorageInformation self info storage_file last_entry = Ok text.
Proof.
  intros Hwell.
  unfold well_formed_record in Hwell.
  apply Bool.andb_true_iff in Hwell as [Hwell Hstores].
  apply Bool.andb_true_iff in Hwell as [Hwell Hplugin].
  apply Bool.andb_true_iff in Hwell as [Hcollection Hcounter].
  unfold _FormatStorageInformation.
  destruct (collection_block_returns self [] info Hcollection)
    as [lines Hlines].
  rewrite Hlines, bind_Ok. unfold counter_and_store_blocks.
  destruct (counter_step_returns lines "Parser counter information" _ Hcounter)
    as [parser_lines Hparser].
  rewrite Hparser, bind_Ok.
  destruct (counter_step_returns
              parser_lines "Plugin counter information" _ Hplugin)
    as [plugin_lines Hplugin_lines].
  rewrite Hplugin_lines, bind_Ok.
  destruct (store_step_returns self plugin_lines _ Hstores)
    as [store_lines Hstore].
  rewrite Hstore, bind_Ok. eexists; reflexivity.
Qed.

(** X1: a well-formed record is formatted without an exception, whatever
    the verbosity, the storage file and the last-entry flag. *)
Theorem well_formed_record_formats :
  forall (self : PinfoFrontend) (info : PreprocessObject)
         (storage_file : StorageFile) (last_entry : bool),
    well_formed_record info = true ->
    exists text : string,
      _FormatStorageInformation self info storage_file last_entry = Ok text.
Proof.
  intros self info storage_file last_entry. apply formatting_returns.
Qed.

(** X2: a record whose stores are a non-empty dict without [Number] cannot
    be formatted: the store block raises [KeyError], and whatever the other
    sections do the call never returns a text. *)
Theorem stores_without_Number_raise :
  forall (self : PinfoFrontend) (info : PreprocessObject)
         (storage_file : StorageFile) (last_entry : bool)
         (entries : list (string * PyValue)),
    getattr info "stores" = PyDict entries ->
    entries <> [] ->
    lookup "Number" entries = None ->
    (forall lines_of_text : list string,
        _AddStoreInformation self lines_of_text (PyDict entries)
        = Raised (KeyError "Number"))
    /\ exists e : PyExn,
         _FormatStorageInformation self info storage_file last_entry
         = Raised e.
Proof.
  intros self info storage_file last_entry entries Hstores Hentries Hnumber.
  assert (Hraise :
            forall lines_of_text : list string,
              _AddStoreInformation self lines_of_text (PyDict entries)
              = Raised (KeyError "Number")).
  { intros lines_of_text. unfold _AddStoreInformation, subscript.
    now rewrite Hnumber. }
  split; [exact Hraise|].
  unfold _FormatStorageInformation.
  destruct (collection_block self [] info) as [lines|e];
    [rewrite bind_Ok | eexists; reflexivity].
  unfold counter_and_store_blocks.
  destruct (if truthy (getattr info "counter")
            then _AddCounterInformation lines "Parser counter information"
                   (getattr info "counter")
            else Ok lines) as [parser_lines|e];
    [rewrite bind_Ok | eexists; reflexivity].
  destruct (if truthy (getattr info "plugin_counter")
            then _AddCounterInformation
                   parser_lines "Plugin counter information"
                   (getattr info "plugin_counter")
            else Ok parser_lines) as [plugin_lines|e];
    [rewrite bind_Ok | eexists; reflexivity].
  rewrite Hstores.
  destruct entries as [|entry entries]; [congruence|].
  cbv beta iota delta [truthy]. rewrite Hraise. eexists; reflexivity.
Qed.

(** *** The loop of the generator *)

(** X3: the loop yields the texts of the records up to the first one whose
    formatting raises, in order, and ends with that exception; when none
    raises it yields every record's text and ends without one. *)
Theorem yield_formatted_until_raise :
  forall (self : PinfoFrontend) (storage_file : StorageFile)
         (entries : list (PreprocessObject * bool)),
    exists formatted rest : list (PreprocessObject * bool),
      entries = (formatted ++ rest)%list
      /\ map (fun entry =>
                _FormatStorageInformation
                  self (fst entry) storage_file (snd entry))
             formatted
         = map Ok (fst (yield_formatted self storage_file entries))
      /\ match snd (yield_formatted self storage_file entries) with
         | None => rest = []
         | Some e =>
             exists (entry : PreprocessObject * bool)
                    (others : list (PreprocessObject * bool)),
               rest = entry :: others
               /\ _FormatStorageInformation
                    self (fst entry) storage_file (snd entry)
                  = Raised e
         end.
Proof.
  intros self storage_file entries.
  induction entries as [|[info last_entry] entries IH].
  - exists [], []. repeat split.
  - simpl yield_formatted.
    destruct (_FormatStorageInformation self info storage_file last_entry)
      as [text|e] eqn:Hformat.
    + destruct IH as [formatted [rest [Hentries [Htexts Hend]]]].
      destruct (yield_formatted self storage_file entries) as [texts e].
      exists ((info, last_entry) :: formatted), rest.
      split; [simpl; now rewrite Hentries|].
      split; [simpl; now rewrite Hformat, Htexts | exact Hend].
    + exists [], ((info, last_entry) :: entries).
      split; [reflexivity|]. split; [reflexivity|].
      exists (info, last_entry), entries. now split.
Qed.

Lemma yield_formatted_all (self : PinfoFrontend) (storage_file : StorageFile)
    (entries : list (PreprocessObject * bool)) :
  forallb (fun entry => well_formed_record (fst entry)) entries = true ->
  exists texts : list string,
    yield_formatted self storage_file entries = (texts, None)
    /\ map Ok texts
       = map (fun entry =>
                _FormatStorageInformation
                  self (fst entry) storage_file (snd entry))
             entries.
Proof.
  induction entries as [|[info last_entry] entries IH]; intros Hwell.
  - exists []. now split.
  - simpl in Hwell. apply Bool.andb_true_iff in Hwell as [Hinfo Hrest].
    destruct (formatting_returns self info storage_file last_entry Hinfo)
      as [text Htext].
    destruct (IH Hrest) as [texts [Hyield Htexts]].
    exists (text :: texts). simpl. rewrite Htext, Hyield.
    split; [reflexivity | now rewrite Htexts].
Qed.

Lemma enumerate_last_entry_well_formed (length index : nat) (last_entry : bool)
    (infos : list PreprocessObject) :
  forallb well_formed_record infos = true ->
  forallb (fun entry => well_formed_record (fst entry))
    (enumerate_last_entry length index last_entry infos)
  = true.
Proof.
  revert index last_entry.
  induction infos as [|info rest IH]; intros index last_entry Hwell;
    [reflexivity|].
  simpl in *. apply Bool.andb_true_iff in Hwell as [Hinfo Hrest].
  now rewrite Hinfo, IH.
Qed.

Lemma combine_fst_snd {A B : Type} (pairs : list (A * B)) :
  combine (map fst pairs) (map snd pairs) = pairs.
Proof.
  induction pairs as [|[a b] pairs IH]; simpl; [reflexivity | now rewrite IH].
Qed.

Lemma generated_when_well_formed :
  forall (self : PinfoFrontend) (storage_file : StorageFile)
         (info : PreprocessObject) (rest : list PreprocessObject),
    OpenStorageFile self = Ok storage_file ->
    GetStorageInformation_list storage_file = info :: rest ->
    forallb well_formed_record (info :: rest) = true ->
    exists texts : list string,
      GetStorageInformation self
      = {| yielded := texts; raised := None; logged := [] |}
      /\ List.length texts = List.length (info :: rest)
      /\ map Ok texts
         = map (fun entry =>
                  _FormatStorageInformation
                    self (fst entry) storage_file (snd entry))
               (combine (info :: rest)
                        (repeat false (List.length rest) ++ [true])%list).
Proof.
  intros self storage_file info rest Hopen Hlist Hwell.
  pose proof (enumerate_last_entry_well_formed
                (List.length (info :: rest)) 0 false (info :: rest) Hwell)
    as Hentries.
  destruct (yield_formatted_all self storage_file _ Hentries)
    as [texts [Hyield Htexts]].
  exists texts.
  assert (Hcombine :
            enumerate_last_entry
              (List.length (info :: rest)) 0 false (info :: rest)
            = combine (info :: rest)
                      (repeat false (List.length rest) ++ [true])%list).
  { rewrite <- (combine_fst_snd
                  (enumerate_last_entry
                     (List.length (info :: rest)) 0 false (info :: rest))).
    rewrite enumerate_last_entry_infos.
    rewrite enumerate_last_entry_flags; [|discriminate|reflexivity].
    simpl List.length.
    now replace (S (List.length rest) - 1)%nat with (List.length rest) by lia. }
  split.
  - unfold GetStorageInformation. rewrite Hopen, Hlist.
    cbv beta iota. now rewrite Hyield.
  - split.
    + apply (f_equal (@List.length _)) in Htexts.
      rewrite !length_map in Htexts. rewrite Htexts.
      rewrite <- (length_map fst).
      now rewrite enumerate_last_entry_infos.
    + now rewrite Htexts, Hcombine.
Qed.

(** X4: a storage file that opens and holds well-formed records only, at
    least one, makes the generator yield one text per record, in order, the
    last-entry flag set for the final record alone; nothing is raised and
    nothing is logged. *)
Theorem GetStorageInformation_well_formed :
  forall (self : PinfoFrontend) (storage_file : StorageFile)
         (info : PreprocessObject) (rest : list PreprocessObject),
    OpenStorageFile self = Ok storage_file ->
    GetStorageInformation_list storage_file = info :: rest ->
    forallb well_formed_record (info :: rest) = true ->
    exists texts : list string,
      GetStorageInformation self
      = {| yielded := texts; raised := None; logged := [] |}
      /\ List.length texts = List.length (info :: rest)
      /\ map Ok texts
         = map (fun entry =>
                  _FormatStorageInformation
                    self (fst entry) storage_file (snd entry))
               (combine (info :: rest)
                        (repeat false (List.length rest) ++ [true])%list).
Proof.
  intros self storage_file info rest.
  apply (@generated_when_well_formed self storage_file info rest).
Qed.

(** *** The tool on top of the generator *)

Lemma print_storage_information_spec (items : list string)
    (storage_information_found : bool) (printed : list string) :
  print_storage_information items storage_information_found printed
  = (match items with
     | [] => storage_information_found
     | _ => true
     end,
     (printed ++ map encode items)%list).
Proof.
  revert storage_information_found printed.
  induction items as [|item rest IH]; intros found printed; simpl.
  - now rewrite app_nil_r.
  - rewrite IH. unfold append. rewrite <- app_assoc.
    now destruct rest.
Qed.

Lemma Main_outcome :
  forall front_end : PinfoFrontend,
    stdout (Main (Ok front_end))
    = (map encode (yielded (GetStorageInformation front_end))
         ++ match yielded (GetStorageInformation front_end),
                  raised (GetStorageInformation front_end) with
            | [], None => ["No Plaso storage information found."]
            | _, _ => []
            end)%list
    /\ log (Main (Ok front_end)) = logged (GetStorageInformation front_end)
    /\ returned (Main (Ok front_end))
       = match raised (GetStorageInformation front_end) with
         | Some e => Raised e
         | None => Ok true
         end.
Proof.
  intros front_end. unfold Main.
  rewrite print_storage_information_spec.
  destruct (GetStorageInformation front_end) as [items e logs].
  simpl yielded; simpl raised; simpl logged.
  destruct e as [e|]; destruct items as [|item items]; simpl;
    rewrite ?app_nil_r; repeat split.
Qed.

(** X5: [Main] prints the generator's items, encoded, in order; the notice
    follows only when the generator yields nothing and raises nothing; the
    log is the generator's, and an exception of the generator escapes once
    the items yielded before it are printed. *)
Theorem Main_prints_yielded_items :
  forall front_end : PinfoFrontend,
    stdout (Main (Ok front_end))
    = (map encode (yielded (GetStorageInformation front_end))
         ++ match yielded (GetStorageInformation front_end),
                  raised (GetStorageInformation front_end) with
            | [], None => ["No Plaso storage information found."]
            | _, _ => []
            end)%list
    /\ log (Main (Ok front_end)) = logged (GetStorageInformation front_end)
    /\ returned (Main (Ok front_end))
       = match raised (GetStorageInformation front_end) with
         | Some e => Raised e
         | None => Ok true
         end.
Proof. exact Main_outcome. Qed.

(** X6: the generator ends without an item and without an exception exactly
    when opening the storage file raises [IOError]; a file that opens
    always gives an item or an exception. *)
Theorem generator_silent_iff_IOError :
  forall self : PinfoFrontend,
    (yielded (GetStorageInformation self) = []
     /\ raised (GetStorageInformation self) = None)
    <-> exists exception : string,
          OpenStorageFile self = Raised (IOError exception).
Proof.
  intros self. unfold GetStorageInformation.
  destruct (OpenStorageFile self) as [storage_file|e].
  - split; [|intros [exception Hopen]; discriminate].
    destruct (GetStorageInformation_list storage_file) as [|info rest].
    + simpl. intros [Hyielded _]. discriminate.
    + simpl enumerate_last_entry. simpl yield_formatted.
      destruct (_FormatStorageInformation self info storage_file _)
        as [text|e].
      * destruct (yield_formatted self storage_file _) as [texts e].
        simpl. intros [Hyielded _]. discriminate.
      * simpl. intros [_ Hraised]. discriminate.
  - destruct e; simpl;
      (split;
       [intros [_ Hraised]; try discriminate; eexists; reflexivity
       |intros [exception Hopen]; try discriminate; now split]).
Qed.

(** X7: [Main] returns [False] exactly when [ParseOptions] raises
    [BadConfigOption]; it then prints the help text and an empty line, logs
    the message, and does not read the storage file. *)
Theorem Main_returns_False_iff_BadConfigOption :
  forall parsed : result PinfoFrontend,
    (returned (Main parsed) = Ok false
     <-> exists exception : string,
           parsed = Raised (BadConfigOption exception))
    /\ forall exception : string,
         Main (Raised (BadConfigOption exception))
         = {| stdout := [help_text; ""];
              log := [exception];
              returned := Ok false |}.
Proof.
  intros parsed. split; [|reflexivity].
  destruct parsed as [front_end|e].
  - split; [|intros [exception Hparsed]; discriminate].
    unfold Main.
    destruct (print_storage_information _ _ _) as [found printed].
    destruct (raised (GetStorageInformation front_end)); simpl; discriminate.
  - destruct e; simpl;
      (split;
       [intros Hreturned; try discriminate; eexists; reflexivity
       |intros [exception Hparsed]; try discriminate; reflexivity]).
Qed.

(** *** The closing rule *)

Lemma length_append (s t : string) :
  String.length (s ++ t) = (String.length s + String.length t)%nat.
Proof. induction s as [|c s IH]; simpl; [reflexivity | now rewrite IH]. Qed.

Lemma repeat_string_length (text : string) (count : Z) :
  String.length (repeat_string text count)
  = (String.length text * Z.to_nat count)%nat.
Proof.
  unfold repeat_string.
  induction (Z.to_nat count) as [|n IH]; [simpl; lia|].
  replace (String.concat "" (repeat text (S n)))
    with (text ++ String.concat "" (repeat text n)).
  - rewrite length_append, IH. lia.
  - destruct n as [|n]; simpl; [now rewrite append_nil_r | reflexivity].
Qed.

Lemma formatted_text_shape (self : PinfoFrontend) (info : PreprocessObject)
    (storage_file : StorageFile) (last_entry : bool) (text : string) :
  _FormatStorageInformation self info storage_file last_entry = Ok text ->
  exists body : string, text = body ++ NL ++ repeat_string "-+" 40.
Proof.
  unfold _FormatStorageInformation.
  destruct (collection_block self [] info) as [lines|e]; [|discriminate].
  rewrite bind_Ok.
  destruct (counter_and_store_blocks self lines info) as [all_lines|e];
    [|discriminate].
  rewrite bind_Ok. intros Htext. injection Htext as Htext.
  exists (String.concat NL
            [String.concat NL all_lines; ""; preprocessing_block self info;
             ""; reports_block self storage_file last_entry]).
  rewrite <- Htext.
  apply (@concat_app NL
           [String.concat NL all_lines; ""; preprocessing_block self info; "";
            reports_block self storage_file last_entry]
           [repeat_string "-+" 40]);
    discriminate.
Qed.

Lemma formatted_text_length (self : PinfoFrontend) (info : PreprocessObject)
    (storage_file : StorageFile) (last_entry : bool) (text : string) :
  _FormatStorageInformation self info storage_file last_entry = Ok text ->
  (81 <= String.length text)%nat.
Proof.
  intros Htext. apply formatted_text_shape in Htext as [body Htext].
  rewrite Htext, !length_append, repeat_string_length. simpl. lia.
Qed.

(** X8: every formatted text ends with a newline and the closing rule of
    eighty characters, so it is never empty. *)
Theorem formatted_text_ends_with_rule :
  forall (self : PinfoFrontend) (info : PreprocessObject)
         (storage_file : StorageFile) (last_entry : bool) (text : string),
    _FormatStorageInformation self info storage_file last_entry = Ok text ->
    (exists body : string, text = body ++ NL ++ repeat_string "-+" 40)
    /\ String.length (repeat_string "-+" 40) = 80%nat
    /\ (81 <= String.length text)%nat.
Proof.
  intros self info storage_file last_entry text Htext.
  split; [now apply formatted_text_shape with (1 := Htext)|].
  split; [reflexivity | now apply formatted_text_length with (1 := Htext)].
Qed.

Lemma yield_formatted_texts (self : PinfoFrontend) (storage_file : StorageFile)
    (entries : list (PreprocessObject * bool)) (text : string) :
  In text (fst (yield_formatted self storage_file entries)) ->
  exists (info : PreprocessObject) (last_entry : bool),
    _FormatStorageInformation self info storage_file last_entry = Ok text.
Proof.
  induction entries as [|[info last_entry] entries IH]; simpl; [intros []|].
  destruct (_FormatStorageInformation self info storage_file last_entry)
    as [first|e] eqn:Hformat; [|simpl; intros []].
  destruct (yield_formatted self storage_file entries) as [texts e].
  simpl in *. intros [Hfirst|Hin].
  - exists info, last_entry. now rewrite Hformat, Hfirst.
  - now apply IH.
Qed.

(** X9: the generator yields the empty string only for a storage file that
    opens and holds no storage information; no record is ever formatted as
    the empty string. *)
Theorem empty_item_means_no_storage_information :
  forall self : PinfoFrontend,
    In "" (yielded (GetStorageInformation self)) ->
    exists storage_file : StorageFile,
      OpenStorageFile self = Ok storage_file
      /\ GetStorageInformation_list storage_file = [].
Proof.
  intros self. unfold GetStorageInformation.
  destruct (OpenStorageFile self) as [storage_file|e].
  - destruct (GetStorageInformation_list storage_file) as [|info rest] eqn:Hlist.
    + intros _. exists storage_file. now split.
    + intros Hin. exfalso.
      destruct (yield_formatted self storage_file _) as [texts e] eqn:Hyield.
      simpl in Hin.
      assert (Htexts :
                In "" (fst (yield_formatted self storage_file
                              (enumerate_last_entry
                                 (List.length (info :: rest)) 0 false
                                 (info :: rest)))))
        by now rewrite Hyield.
      apply yield_formatted_texts in Htexts as [record [flag Hformat]].
      apply formatted_text_length in Hformat. simpl in Hformat. lia.
  - destruct e; simpl; intros Hin; contradiction Hin.
Qed.

(** *** The header *)

(** X10: the header is the banner between two rules of [_LINE_LENGTH]
    hyphens each, empty rules when that length is not positive. *)
Theorem header_rules_have_line_length :
  forall lines_of_text : list string,
    _AddHeader lines_of_text
    = (lines_of_text
         ++ [repeat_string "-" _LINE_LENGTH;
             (TAB ++ TAB ++ "Plaso Storage Information")%string;
             repeat_string "-" _LINE_LENGTH])%list
    /\ String.length (repeat_string "-" _LINE_LENGTH) = Z.to_nat _LINE_LENGTH
    /\ ((_LINE_LENGTH <= 0)%Z -> repeat_string "-" _LINE_LENGTH = "").
Proof.
  intros lines_of_text. split.
  - unfold _AddHeader, append. now rewrite <- !app_assoc.
  - split.
    + rewrite repeat_string_length. simpl. lia.
    + intros Hlength. unfold repeat_string.
      now replace (Z.to_nat _LINE_LENGTH) with 0%nat by lia.
Qed.

(** *** More on the counter block *)

Lemma sorted_by_count_fixed (counts : list (string * Z)) :
  descending counts -> sorted_by_count counts = counts.
Proof.
  unfold descending.
  induction counts as [|entry rest IH]; intros Hsorted; [reflexivity|].
  apply StronglySorted_inv in Hsorted as [Hrest Hentry].
  simpl. rewrite (IH Hrest).
  destruct rest as [|head rest]; [reflexivity|].
  simpl. apply Forall_inv in Hentry.
  now replace (snd head <=? snd entry)%Z with true
    by (symmetry; apply Z.leb_le; exact Hentry).
Qed.

(** X11: a Counter whose iteration order is already by descending count is
    rendered in that order, line for line. *)
Theorem descending_counter_rendered_in_order :
  forall (lines_of_text : list string) (description : string)
         (counts : list (string * Z)),
    descending counts ->
    _AddCounterInformation lines_of_text description (PyCounter counts)
    = Ok (append (append lines_of_text "") (description ++ ":")
            ++ counter_lines counts)%list.
Proof.
  intros lines_of_text description counts Hsorted.
  unfold _AddCounterInformation, most_common.
  now rewrite (sorted_by_count_fixed Hsorted).
Qed.

(** X12: the first counter line of a non-empty Counter carries an entry of
    the table whose count no other entry exceeds. *)
Theorem first_counter_line_is_most_common :
  forall counts : list (string * Z),
    counts <> [] ->
    exists (top : string * Z) (others : list (string * Z)),
      sorted_by_count counts = top :: others
      /\ In top counts
      /\ Forall (fun entry => (snd entry <= snd top)%Z) counts.
Proof.
  intros counts Hcounts.
  pose proof (sorted_by_count_perm counts) as Hperm.
  pose proof (sorted_by_count_descending counts) as Hsorted.
  destruct (sorted_by_count counts) as [|top others].
  - apply Permutation_sym, Permutation_nil in Hperm. contradiction.
  - exists top, others. split; [reflexivity|]. split.
    + apply (Permutation_in top (Permutation_sym Hperm)). now left.
    + apply (Permutation_Forall (Permutation_sym Hperm)).
      apply StronglySorted_inv in Hsorted as [_ Htop].
      constructor; [lia | exact Htop].
Qed.

(** X13: the counter block of a Counter is an empty line, the description
    line and one line per label of the table. *)
Theorem counter_block_one_line_per_label :
  forall (lines_of_text : list string) (description : string)
         (counts : list (string * Z)),
    exists entries : list string,
      _AddCounterInformation lines_of_text description (PyCounter counts)
      = Ok (lines_of_text ++ "" :: (description ++ ":")%string :: entries)%list
      /\ List.length entries = List.length counts.
Proof.
  intros lines_of_text description counts.
  exists (counter_lines (sorted_by_count counts)). split.
  - unfold _AddCounterInformation, most_common, append. rewrite bind_Ok.
    now rewrite <- !app_assoc.
  - unfold counter_lines. rewrite length_map.
    symmetry. apply Permutation_length, sorted_by_count_perm.
Qed.

(** *** Attributes the preprocessing block skips *)

(** X14: an attribute named [collection_information], [counter] or [stores]
    adds nothing to the preprocessing block, wherever it stands in the
    record and whatever it holds. *)
Theorem preprocessing_block_skips_own_blocks :
  forall (self : PinfoFrontend) (front back : PreprocessObject)
         (key : string) (value : PyValue),
    In key ["collection_information"; "counter"; "stores"] ->
    preprocessing_block self (front ++ (key, value) :: back)%list
    = preprocessing_block self (front ++ back)%list.
Proof.
  intros self front back key value Hkey.
  destruct (_verbose self) eqn:Hverbose.
  - rewrite !(preprocessing_block_verbose _ _ Hverbose).
    rewrite !preprocessing_entries_app.
    assert (Hskip : preprocessing_entry key value = "").
    { simpl in Hkey.
      destruct Hkey as [Hkey|[Hkey|[Hkey|[]]]]; subst key; reflexivity. }
    simpl preprocessing_entries. now rewrite Hskip.
  - now rewrite !(preprocessing_block_quiet _ _ Hverbose).
Qed.

(** *** From the storage file to the output *)

(** X15: on a storage file that opens and holds well-formed records only,
    at least one, [Main] prints one text per record and no notice, logs
    nothing and returns [True]. *)
Theorem Main_well_formed_storage :
  forall (front_end : PinfoFrontend) (storage_file : StorageFile)
         (info : PreprocessObject) (rest : list PreprocessObject),
    OpenStorageFile front_end = Ok storage_file ->
    GetStorageInformation_list storage_file = info :: rest ->
    forallb well_formed_record (info :: rest) = true ->
    exists texts : list string,
      Main (Ok front_end)
      = {| stdout := map encode texts; log := []; returned := Ok true |}
      /\ List.length texts = List.length (info :: rest)
      /\ yielded (GetStorageInformation front_end) = texts.
Proof.
  intros front_end storage_file info rest Hopen Hlist Hwell.
  destruct (generated_when_well_formed front_end Hopen Hlist Hwell)
    as [texts [Hgenerated [Hlength _]]].
  exists texts.
  destruct (Main_outcome front_end) as [Hstdout [Hlog Hreturned]].
  rewrite Hgenerated in Hstdout, Hlog, Hreturned.
  cbn [yielded raised logged] in Hstdout, Hlog, Hreturned.
  split; [|split; [exact Hlength | now rewrite Hgenerated]].
  destruct (Main (Ok front_end)) as [out logs ret].
  cbn [stdout log returned] in Hstdout, Hlog, Hreturned.
  rewrite Hstdout, Hlog, Hreturned.
  destruct texts as [|text texts]; [discriminate Hlength|].
  now rewrite app_nil_r.
Qed.

End Pinfo.

(** ** Sample runs *)

(** C5, as stated, fails: with verbosity off the preprocessing block of the
    sample record is the omission line, which does not begin with the header
    [Preprocessing information:], and no line of the output is that
    header. *)
Lemma preprocessing_header_absent_when_quiet :
  preprocessing_block Sample.py_str Sample.pformat Sample.quiet Sample.info_plain
  = "Preprocessing information omitted (to see use: --verbose)."
  /\ String.prefix
       "Preprocessing information:"
       (preprocessing_block
          Sample.py_str Sample.pformat Sample.quiet Sample.info_plain)
     = false
  /\ _FormatStorageInformation
       Sample.py_str Sample.pformat Sample.CopyToIsoFormat Sample.LINE_LENGTH
       Sample.quiet Sample.info_plain Sample.without_reports true
     = Ok (String.concat NL
             [repeat_string "-" 80;
              TAB ++ TAB ++ "Plaso Storage Information";
              repeat_string "-" 80;
              "Storage file:" ++ TAB ++ TAB ++ "disk.plaso";
              "Source processed:" ++ TAB ++ "disk.img";
              "Time of processing:" ++ TAB ++ "1970-01-01T00:00:00+00:00";
              "";
              "Collection information:";
              "";
              "Store information:";
              TAB ++ "Number of available stores: 1";
              TAB ++ "Store information details omitted (to see use: --verbose)";
              "";
              "Preprocessing information omitted (to see use: --verbose).";
              "";
              "No reports stored.";
              repeat_string "-+" 40]).
Proof. repeat split. Qed.

(** C5, amended, on a verbose run: the block opens with the header and its
    body lists the attribute [zone]. *)
Lemma preprocessing_block_gated_witness :
  exists body : string,
    preprocessing_block
      Sample.py_str Sample.pformat Sample.verbose Sample.info_detailed
    = "Preprocessing information:" ++ NL ++ body
    /\ exists before after : string,
         body = before ++ (TAB ++ "zone" ++ " = " ++ "UTC" ++ NL) ++ after.
Proof.
  assert (Hgated :
            exists body : string,
              preprocessing_block
                Sample.py_str Sample.pformat Sample.verbose
                Sample.info_detailed
              = "Preprocessing information:" ++ NL ++ body
              /\ forall (key : string) (value : PyValue),
                   In (key, value) Sample.info_detailed ->
                   not_in key ["collection_information"; "counter";
                               "plugin_counter"; "stores"] = true ->
                   exists before after : string,
                     body
                     = before
                         ++ (TAB ++ key
                               ++ (if isinstance_list value
                                   then " =" ++ NL ++ Sample.pformat value
                                   else " = " ++ Sample.py_str value)
                               ++ NL)
                         ++ after)
    by exact (proj1 (preprocessing_block_gated
                       Sample.py_str Sample.pformat Sample.CopyToIsoFormat
                       Sample.LINE_LENGTH Sample.verbose Sample.info_detailed
                       Sample.with_reports true)).
  destruct Hgated as [body [Hbody Hlisted]].
  exists body. split; [exact Hbody|].
  apply (Hlisted "zone" (PyStr "UTC")); [left; reflexivity | reflexivity].
Defined.

(** C6 on two sample records that differ in a store detail, in a further
    attribute and in the report texts. *)
Lemma quiet_output_independent_of_details_witness :
  _FormatStorageInformation
    Sample.py_str Sample.pformat Sample.CopyToIsoFormat Sample.LINE_LENGTH
    Sample.quiet Sample.info_plain Sample.with_report true
  = _FormatStorageInformation
      Sample.py_str Sample.pformat Sample.CopyToIsoFormat Sample.LINE_LENGTH
      Sample.quiet Sample.info_detailed Sample.with_reports true.
Proof.
  apply (quiet_output_independent_of_details
           Sample.py_str Sample.pformat Sample.CopyToIsoFormat
           Sample.LINE_LENGTH Sample.quiet
           Sample.info_plain Sample.info_detailed
           Sample.with_report Sample.with_reports true);
    try reflexivity.
  right.
  exists [("Number", PyInt 1)],
         [("Store 1", PyList []); ("Number", PyInt 1)],
         (PyInt 1).
  repeat split.
Defined.

(** C8 on a sample record that has a parser counter only. *)
Lemma missing_collection_information_first_witness :
  _FormatStorageInformation
    Sample.py_str Sample.pformat Sample.CopyToIsoFormat Sample.LINE_LENGTH
    Sample.quiet Sample.info_counter Sample.without_reports true
  = Ok (String.concat NL
          ["Missing collection information.";
           "";
           "Parser counter information:";
           TAB ++ "Counter: a = 5";
           TAB ++ "Counter: b = 5";
           TAB ++ "Counter: c = 2";
           "";
           "Preprocessing information omitted (to see use: --verbose).";
           "";
           "No reports stored.";
           repeat_string "-+" 40]).
Proof.
  rewrite (missing_collection_information_first
             Sample.py_str Sample.pformat Sample.CopyToIsoFormat
             Sample.LINE_LENGTH Sample.quiet Sample.info_counter
             Sample.without_reports true);
    reflexivity.
Defined.

(** C9 on a collection-information dict that holds neither field. *)
Lemma collection_information_defaults_witness :
  _AddCollectionInformation
    Sample.py_str Sample.CopyToIsoFormat Sample.quiet []
    (PyDict [("method", PyStr "imaging")])
  = Ok ["Storage file:" ++ TAB ++ TAB ++ "disk.plaso";
        "Source processed:" ++ TAB ++ "N/A";
        "Time of processing:" ++ TAB ++ "1970-01-01T00:00:00+00:00";
        "";
        "Collection information:";
        TAB ++ "method = imaging"].
Proof.
  apply (proj1 (collection_information_defaults
                  Sample.py_str Sample.CopyToIsoFormat Sample.quiet []
                  [("method", PyStr "imaging")]));
    reflexivity.
Defined.

(** ** The pretty-printer and verbosity *)

(** X16: with verbosity off the pretty-printer is never consulted: the
    formatted text is the same under any two of them. *)
Theorem quiet_formatting_ignores_pformat :
  forall (py_str pformat1 pformat2 : PyValue -> string)
         (CopyToIsoFormat : Z -> string) (_LINE_LENGTH : Z)
         (self : PinfoFrontend) (info : PreprocessObject)
         (storage_file : StorageFile) (last_entry : bool),
    _verbose self = false ->
    _FormatStorageInformation
      py_str pformat1 CopyToIsoFormat _LINE_LENGTH
      self info storage_file last_entry
    = _FormatStorageInformation
        py_str pformat2 CopyToIsoFormat _LINE_LENGTH
        self info storage_file last_entry.
Proof.
  intros py_str pformat1 pformat2 CopyToIsoFormat _LINE_LENGTH
    self info storage_file last_entry Hquiet.
  unfold _FormatStorageInformation, counter_and_store_blocks,
    _AddStoreInformation, preprocessing_block.
  rewrite Hquiet. reflexivity.
Qed.

(** ** Further sample runs *)

(** X1 on the detailed sample record, verbosely. *)
Lemma well_formed_record_formats_witness :
  exists text : string,
    _FormatStorageInformation
      Sample.py_str Sample.pformat Sample.CopyToIsoFormat Sample.LINE_LENGTH
      Sample.verbose Sample.info_detailed Sample.with_reports true
    = Ok text.
Proof.
  apply (well_formed_record_formats
           Sample.py_str Sample.pformat Sample.CopyToIsoFormat
           Sample.LINE_LENGTH Sample.verbose Sample.info_detailed
           Sample.with_reports true).
  reflexivity.
Defined.

(** X2 on the sample record whose stores lack [Number]. *)
Lemma stores_without_Number_raise_witness :
  exists e : PyExn,
    _FormatStorageInformation
      Sample.py_str Sample.pformat Sample.CopyToIsoFormat Sample.LINE_LENGTH
      Sample.quiet Sample.info_no_number Sample.without_reports true
    = Raised e.
Proof.
  apply (stores_without_Number_raise
           Sample.py_str Sample.pformat Sample.CopyToIsoFormat
           Sample.LINE_LENGTH Sample.quiet Sample.info_no_number
           Sample.without_reports true
           (entries := [("Store 1", PyList [])]));
    [reflexivity | discriminate | reflexivity].
Defined.

(** X4 on the sample storage file with two runs. *)
Lemma GetStorageInformation_well_formed_witness :
  exists texts : list string,
    GetStorageInformation
      Sample.py_str Sample.pformat Sample.CopyToIsoFormat Sample.LINE_LENGTH
      (Sample.opened true)
    = {| yielded := texts; raised := None; logged := [] |}
    /\ List.length texts = 2%nat.
Proof.
  destruct (GetStorageInformation_well_formed
              Sample.py_str Sample.pformat Sample.CopyToIsoFormat
              Sample.LINE_LENGTH (Sample.opened true)
              (storage_file := Sample.two_runs)
              (info := Sample.info_detailed) (rest := [Sample.info_plain])
              eq_refl eq_refl eq_refl)
    as [texts [Hgenerated [Hlength _]]].
  exists texts. split; [exact Hgenerated | exact Hlength].
Defined.

(** X8 on the sample record that has a parser counter only. *)
Lemma formatted_text_ends_with_rule_witness :
  (81 <= String.length
           (String.concat NL
              ["Missing collection information.";
               "";
               "Parser counter information:";
               TAB ++ "Counter: a = 5";
               TAB ++ "Counter: b = 5";
               TAB ++ "Counter: c = 2";
               "";
               "Preprocessing information omitted (to see use: --verbose).";
               "";
               "No reports stored.";
               repeat_string "-+" 40]))%nat.
Proof.
  apply (formatted_text_ends_with_rule
           Sample.py_str Sample.pformat Sample.CopyToIsoFormat
           Sample.LINE_LENGTH Sample.quiet Sample.info_counter
           Sample.without_reports true).
  reflexivity.
Defined.

(** X9 on the sample storage file without any run. *)
Lemma empty_item_means_no_storage_information_witness :
  exists storage_file : StorageFile,
    OpenStorageFile Sample.opened_empty = Ok storage_file
    /\ GetStorageInformation_list storage_file = [].
Proof.
  apply (empty_item_means_no_storage_information
           Sample.py_str Sample.pformat Sample.CopyToIsoFormat
           Sample.LINE_LENGTH Sample.opened_empty).
  left. reflexivity.
Defined.

(** X11 on the sample counter, which is in descending order. *)
Lemma descending_counter_rendered_in_order_witness :
  _AddCounterInformation
    [] "Parser counter information"
    (PyCounter [("a", 5); ("b", 5); ("c", 2)])
  = Ok [""; "Parser counter information:";
        TAB ++ "Counter: a = 5"; TAB ++ "Counter: b = 5";
        TAB ++ "Counter: c = 2"].
Proof.
  apply (descending_counter_rendered_in_order
           [] "Parser counter information"
           (counts := [("a", 5); ("b", 5); ("c", 2)])).
  repeat constructor; simpl; lia.
Defined.

(** X12 on a counter whose largest counts come last. *)
Lemma first_counter_line_is_most_common_witness :
  exists (top : string * Z) (others : list (string * Z)),
    sorted_by_count [("c", 2); ("a", 5); ("b", 5)] = top :: others
    /\ In top [("c", 2); ("a", 5); ("b", 5)]
    /\ Forall (fun entry => (snd entry <= snd top)%Z)
         [("c", 2); ("a", 5); ("b", 5)].
Proof.
  apply (first_counter_line_is_most_common
           (counts := [("c", 2); ("a", 5); ("b", 5)])).
  discriminate.
Defined.

(** X14 on a verbose run over a record with a counter attribute. *)
Lemma preprocessing_block_skips_own_blocks_witness :
  preprocessing_block
    Sample.py_str Sample.pformat Sample.verbose
    ([("zone", PyStr "UTC")] ++ ("counter", PyCounter [("a", 5)]) :: [])%list
  = preprocessing_block
      Sample.py_str Sample.pformat Sample.verbose
      ([("zone", PyStr "UTC")] ++ [])%list.
Proof.
  apply (preprocessing_block_skips_own_blocks
           Sample.py_str Sample.pformat Sample.verbose
           [("zone", PyStr "UTC")] [] (PyCounter [("a", 5)])
           (key := "counter")).
  right. left. reflexivity.
Defined.

(** X15 on the sample storage file with two runs. *)
Lemma Main_well_formed_storage_witness :
  exists texts : list string,
    Main
      Sample.py_str Sample.pformat Sample.CopyToIsoFormat Sample.LINE_LENGTH
      (fun text => text) "usage" (Ok (Sample.opened false))
    = {| stdout := map (fun text => text) texts;
         log := [];
         returned := Ok true |}
    /\ List.length texts = 2%nat.
Proof.
  destruct (Main_well_formed_storage
              Sample.py_str Sample.pformat Sample.CopyToIsoFormat
              Sample.LINE_LENGTH (fun text => text) "usage"
              (Sample.opened false)
              (storage_file := Sample.two_runs)
              (info := Sample.info_detailed) (rest := [Sample.info_plain])
              eq_refl eq_refl eq_refl)
    as [texts [Hmain [Hlength _]]].
  exists texts. split; [exact Hmain | exact Hlength].
Defined.

(** X16 on the sample record with a store detail. *)
Lemma quiet_formatting_ignores_pformat_witness :
  _FormatStorageInformation
    Sample.py_str Sample.pformat Sample.CopyToIsoFormat Sample.LINE_LENGTH
    Sample.quiet Sample.info_detailed Sample.with_reports true
  = _FormatStorageInformation
      Sample.py_str (fun _ => "") Sample.CopyToIsoFormat Sample.LINE_LENGTH
      Sample.quiet Sample.info_detailed Sample.with_reports true.
Proof.
  apply (quiet_formatting_ignores_pformat
           Sample.py_str Sample.pformat (fun _ => "")
           Sample.CopyToIsoFormat Sample.LINE_LENGTH
           Sample.quiet Sample.info_detailed Sample.with_reports true).
  reflexivity.
Defined.
